(** * Migration 048: ssh_connections.ssh_key_id foreign key, CASCADE -> SET NULL

    A shallow embedding of
    [app/database/migrations/048_fix_ssh_connection_cascade.py].

    The migration talks to a database connection.  The embedding keeps the
    three layers of the script apart:

    - the rows the two catalogue PRAGMAs return ([fk_row], [col_row]) and the
      text the script builds from them ([col_def], [col_defs], [new_ddl],
      [col_names], [insert_sql]);
    - the control flow of [upgrade] and [downgrade], written in a small
      state-and-exception monad over a connection, generic in the engine
      behind the connection (class [Engine]);
    - a catalogue-level model of the SQLite engine the script targets
      (module [Sqlite]), used for the statements about the resulting schema.
*)

From Stdlib Require Import ZArith String Ascii List Bool.
From stdpp Require Import base option list strings gmap fin_maps.

Local Open Scope string_scope.
Local Open Scope Z_scope.
Local Open Scope list_scope.

(** ** Text helpers *)

(** The line feed, as in the Python literals ["\n"]. *)
Definition nl : string := String (ascii_of_nat 10) EmptyString.

(** Python's [sep.join(l)]. *)
Definition join (sep : string) (l : list string) : string := String.concat sep l.


(** ** Rows returned by the catalogue PRAGMAs *)

(** [PRAGMA foreign_key_list]: (id, seq, table, from, to, on_update,
    on_delete, match). *)
Record fk_row := FkRow {
  fk_id : Z;
  fk_seq : Z;
  fk_table : string;
  fk_from : string;
  fk_to : string;
  fk_on_update : string;
  fk_on_delete : string;
  fk_match : string
}.

(** [PRAGMA table_info]: (cid, name, type, notnull, dflt_value, pk).
    [notnull] is 0 or 1; [pk] is 0 for a column outside the primary key and
    the 1-based rank of the column inside it otherwise; [dflt_value] is
    [None] for Python's [None]. *)
Record col_row := ColRow {
  cid : Z;
  name : string;
  type_ : string;
  notnull : Z;
  dflt_value : option string;
  pk : Z
}.

(** Python truthiness of an integer. *)
Definition truthy (z : Z) : bool := negb (z =? 0).

(** ** DDL synthesis (lines 41-58 and 65-69 of the script) *)

(** [has_cascade = any(row[6] == "CASCADE" for row in fk_rows)] *)
Definition has_cascade (fk_rows : list fk_row) : bool :=
  existsb (fun row => String.eqb (fk_on_delete row) "CASCADE") fk_rows.

(** The body of the [for ... in col_rows] loop: the definition appended for
    one row. *)
Definition col_def (row : col_row) : string :=
  if truthy (pk row) then
    "    " +:+ name row +:+ " " +:+ type_ row +:+ " PRIMARY KEY"
  else
    let parts := ["    " +:+ name row; type_ row] in
    let parts := if truthy (notnull row) then parts ++ ["NOT NULL"] else parts in
    let parts :=
      match dflt_value row with
      | Some d => parts ++ ["DEFAULT " +:+ d]
      | None => parts
      end in
    join " " parts.

Definition fk_clause_line : string :=
  "    FOREIGN KEY (ssh_key_id) REFERENCES ssh_keys(id) ON DELETE SET NULL".

(** [col_defs] after the loop and the final [append]. *)
Definition col_defs (col_rows : list col_row) : list string :=
  map col_def col_rows ++ [fk_clause_line].

Definition new_ddl (col_rows : list col_row) : string :=
  "CREATE TABLE ssh_connections_new (" +:+ nl +:+
  join ("," +:+ nl) (col_defs col_rows) +:+ nl +:+ ")".

(** [col_names = ", ".join(row[1] for row in col_rows)] *)
Definition col_names (col_rows : list col_row) : string :=
  join ", " (map name col_rows).

Definition insert_sql (col_rows : list col_row) : string :=
  "INSERT INTO ssh_connections_new (" +:+ col_names col_rows +:+ ")" +:+
  " SELECT " +:+ col_names col_rows +:+ " FROM ssh_connections".

(** ** Statements sent over the connection

    The engine behind the connection reads SQL text.  The embedding hands it
    the statement in parsed form ([stmt]) and keeps the text through the
    printer [sql]: what is recorded as executed is always [sql s], and
    [sql_create_scratch] and [sql_insert_copy] below show that the printed form of the
    two synthesized statements is, character for character, the text the
    script builds by concatenation. *)

Inductive action := NO_ACTION | RESTRICT | SET_NULL | SET_DEFAULT | CASCADE.

Definition action_sql (a : action) : string :=
  match a with
  | NO_ACTION => "NO ACTION"
  | RESTRICT => "RESTRICT"
  | SET_NULL => "SET NULL"
  | SET_DEFAULT => "SET DEFAULT"
  | CASCADE => "CASCADE"
  end.

Inductive table_item :=
  | Column_def (cname ctype : string) (not_null : bool)
               (default : option string) (primary_key : bool)
  | Foreign_key (from table to : string) (on_delete : action).

Inductive stmt :=
  | Drop_table_if_exists (t : string)
  | Create_table (t : string) (items : list table_item)
  | Insert_select (dst : string) (cols : list string) (src : string)
  | Drop_table (t : string)
  | Alter_table_rename (t new_name : string)
  | Create_index_if_not_exists (ix t col : string).

(** A column definition in full: name and type, then [NOT NULL], then
    [DEFAULT], then [PRIMARY KEY]; a table-level foreign-key clause. *)
Definition item_sql (i : table_item) : string :=
  match i with
  | Column_def n t nn d p =>
      join " " ([n; t]
                ++ (if nn then ["NOT NULL"] else [])
                ++ (match d with Some e => ["DEFAULT " +:+ e] | None => [] end)
                ++ (if p then ["PRIMARY KEY"] else []))
  | Foreign_key f t c a =>
      "FOREIGN KEY (" +:+ f +:+ ") REFERENCES " +:+ t +:+ "(" +:+ c +:+
      ") ON DELETE " +:+ action_sql a
  end.

Definition indent4 : string := "    ".
Definition indent8 : string := "        ".
Definition indent12 : string := "            ".

Definition sql (s : stmt) : string :=
  match s with
  | Drop_table_if_exists t => "DROP TABLE IF EXISTS " +:+ t
  | Create_table t items =>
      "CREATE TABLE " +:+ t +:+ " (" +:+ nl +:+
      join ("," +:+ nl) (map (fun i => indent4 +:+ item_sql i) items) +:+ nl +:+ ")"
  | Insert_select dst cols src =>
      "INSERT INTO " +:+ dst +:+ " (" +:+ join ", " cols +:+ ")" +:+
      " SELECT " +:+ join ", " cols +:+ " FROM " +:+ src
  | Drop_table t => "DROP TABLE " +:+ t
  | Alter_table_rename t n => "ALTER TABLE " +:+ t +:+ " RENAME TO " +:+ n
  | Create_index_if_not_exists ix t col =>
      nl +:+ indent12 +:+ "CREATE INDEX IF NOT EXISTS " +:+ ix +:+
      nl +:+ indent12 +:+ "ON " +:+ t +:+ "(" +:+ col +:+ ")" +:+
      nl +:+ indent8
  end.

Definition sql_foreign_key_list (t : string) : string :=
  "PRAGMA foreign_key_list(" +:+ t +:+ ")".
Definition sql_table_info (t : string) : string :=
  "PRAGMA table_info(" +:+ t +:+ ")".

(** The parsed form of the line [col_def] writes for one row: a primary-key
    row keeps its name and type only. *)
Definition item_of_row (row : col_row) : table_item :=
  if truthy (pk row) then Column_def (name row) (type_ row) false None true
  else Column_def (name row) (type_ row) (truthy (notnull row)) (dflt_value row) false.

Definition fk_item : table_item := Foreign_key "ssh_key_id" "ssh_keys" "id" SET_NULL.

Definition create_items (col_rows : list col_row) : list table_item :=
  map item_of_row col_rows ++ [fk_item].

Definition create_scratch (col_rows : list col_row) : stmt :=
  Create_table "ssh_connections_new" (create_items col_rows).

Definition insert_copy (col_rows : list col_row) : stmt :=
  Insert_select "ssh_connections_new" (map name col_rows) "ssh_connections".

Definition create_index : stmt :=
  Create_index_if_not_exists "ix_ssh_connections_ssh_key_id" "ssh_connections" "ssh_key_id".

(** ** The connection: engine interface, execution log, standard output *)

(** A raised Python exception; [exn_str] is [str(e)]. *)
Record exn := Exn { exn_str : string }.

(** What the script needs from the engine behind [connection.execute]: the
    two catalogue queries and the execution of a statement.  A statement
    that fails leaves the database as it was. *)
Class Engine (D : Type) := {
  foreign_key_list : string -> D -> exn + list fk_row;
  table_info : string -> D -> exn + list col_row;
  run : stmt -> D -> exn + D
}.

Inductive result (A : Type) :=
  | Ok (a : A)
  | Raise (e : exn).
Arguments Ok {A} a.
Arguments Raise {A} e.

Section Migration.
Context {D : Type} `{Engine D}.

(** [executed]: the text of every statement handed to
    [connection.execute], oldest first; [stdout]: the printed lines. *)
Record conn := Conn {
  db : D;
  executed : list string;
  stdout : list string
}.

Definition M (A : Type) : Type := conn -> result A * conn.

Definition ret {A} (a : A) : M A := fun c => (Ok a, c).

Definition bind {A B} (m : M A) (k : A -> M B) : M B :=
  fun c => match m c with
           | (Ok a, c') => k a c'
           | (Raise e, c') => (Raise e, c')
           end.

(** [try: body except Exception as e: handler(e)] *)
Definition try_except {A} (body : M A) (handler : exn -> M A) : M A :=
  fun c => match body c with
           | (Ok a, c') => (Ok a, c')
           | (Raise e, c') => handler e c'
           end.

Definition print (line : string) : M unit :=
  fun c => (Ok tt, Conn (db c) (executed c) (stdout c ++ [line])).

Definition logged (text : string) (c : conn) : conn :=
  Conn (db c) (executed c ++ [text]) (stdout c).

Definition pragma_foreign_key_list (t : string) : M (list fk_row) :=
  fun c => match foreign_key_list t (db c) with
           | inr rows => (Ok rows, logged (sql_foreign_key_list t) c)
           | inl e => (Raise e, logged (sql_foreign_key_list t) c)
           end.

Definition pragma_table_info (t : string) : M (list col_row) :=
  fun c => match table_info t (db c) with
           | inr rows => (Ok rows, logged (sql_table_info t) c)
           | inl e => (Raise e, logged (sql_table_info t) c)
           end.

Definition execute (s : stmt) : M unit :=
  fun c => match run s (db c) with
           | inr d => (Ok tt, Conn d (executed c ++ [sql s]) (stdout c))
           | inl e => (Raise e, logged (sql s) c)
           end.

Notation "x <- m ;; k" := (bind m (fun x => k))
  (at level 100, m at next level, right associativity).
Notation "m ;; k" := (bind m (fun _ => k))
  (at level 100, right associativity).

Definition msg_skip : string :=
  "✓ ssh_connections FK already uses SET NULL — skipping migration 048".
Definition msg_fixing : string :=
  "⚠️  Fixing ssh_connections foreign key constraint...".
Definition msg_fixed : string :=
  "✓ SSH connection foreign key constraint fixed".
Definition msg_preserved : string :=
  "✓ Connections will now be preserved when SSH keys are deleted".
Definition msg_error (e : exn) : string :=
  "✗ Error fixing foreign key constraint: " +:+ exn_str e.
Definition msg_note : string :=
  "  Note: If this fails, connections may still be deleted when keys are removed".
Definition msg_downgrade : string :=
  "✓ Downgrade skipped - keeping SET NULL behavior for safety".

(** The body of the [try] block. *)
Definition rebuild : M unit :=
  col_rows <- pragma_table_info "ssh_connections" ;;
  execute (Drop_table_if_exists "ssh_connections_new") ;;
  execute (create_scratch col_rows) ;;
  execute (insert_copy col_rows) ;;
  execute (Drop_table "ssh_connections") ;;
  execute (Alter_table_rename "ssh_connections_new" "ssh_connections") ;;
  execute create_index ;;
  print msg_fixed ;;
  print msg_preserved.

Definition upgrade : M unit :=
  fk_rows <- pragma_foreign_key_list "ssh_connections" ;;
  if negb (has_cascade fk_rows) then
    print msg_skip
  else
    print msg_fixing ;;
    try_except rebuild
      (fun e => print (msg_error e) ;; print msg_note).

Definition downgrade : M unit :=
  print msg_downgrade.

(** *** The rebuild as a statement sequence

    The statements of the [try] block after the catalogue query, in order,
    and what running them one after the other up to the first failure
    leaves: the database after the last statement that succeeded, the
    texts sent (the failing one included) and the failure, if any. *)

Definition rebuild_stmts (col_rows : list col_row) : list stmt :=
  [ Drop_table_if_exists "ssh_connections_new";
    create_scratch col_rows;
    insert_copy col_rows;
    Drop_table "ssh_connections";
    Alter_table_rename "ssh_connections_new" "ssh_connections";
    create_index ].

Record outcome := Outcome {
  final : D;
  sent : list string;
  failure : option exn
}.

Fixpoint run_to_failure (stmts : list stmt) (d : D) : outcome :=
  match stmts with
  | [] => Outcome d [] None
  | s :: rest =>
      match run s d with
      | inr d' =>
          let o := run_to_failure rest d' in
          Outcome (final o) (sql s :: sent o) (failure o)
      | inl e => Outcome d [sql s] (Some e)
      end
  end.

(** The lines printed after [msg_fixing], by outcome of the [try] block. *)
Definition report (failure : option exn) : list string :=
  match failure with
  | None => [msg_fixed; msg_preserved]
  | Some e => [msg_error e; msg_note]
  end.

(** The skip path, as an observation on one run: nothing but the guard
    query was sent, the database is the one the run started from, and the
    skip line was printed. *)
Definition skips (c : conn) : Prop :=
  snd (upgrade c) =
    Conn (db c) (executed c ++ [sql_foreign_key_list "ssh_connections"])
         (stdout c ++ [msg_skip]).

(** The rebuild was entered: the second statement sent is the catalogue
    query that opens the [try] block. *)
Definition enters_rebuild (c : conn) : Prop :=
  exists rest,
    executed (snd (upgrade c)) =
      executed c ++ sql_foreign_key_list "ssh_connections"
        :: sql_table_info "ssh_connections" :: rest.

(** [n] runs of [upgrade] one after the other on the same connection, as the
    runner does over [n] startups. *)
Fixpoint upgrade_runs (n : nat) (c : conn) : conn :=
  match n with
  | O => c
  | S m => snd (upgrade (upgrade_runs m c))
  end.

End Migration.

Arguments conn D : clear implicits.
Arguments Conn {D} db executed stdout.
Arguments outcome D : clear implicits.

(** ** A catalogue-level model of the SQLite engine

    The model keeps what the script reads and writes: per table the column
    declarations, the foreign keys and the rows, and the indexes of the
    database.  It follows SQLite's documented behaviour for the statements the
    script issues: a catalogue PRAGMA on a table that does not exist answers
    with no rows and no error; column names are compared without regard to
    letter case; a table cannot take the name of an index, nor the other way
    round.

    What the catalogue cannot decide is left open rather than assumed away.
    Whether the engine's parser reads a printed statement as the statement
    meant (a name that needs quoting, a default expression that lost its
    parentheses on the way through [PRAGMA table_info]), whether a copied row
    violates a constraint, whether foreign-key enforcement lets a table be
    dropped: all this is the database's [refusal], an arbitrary function
    consulted before a statement takes effect.  Every statement about the
    model holds for every [refusal].

    Tables and indexes are keyed by their names as the engine folds them.
    Outside the model: views and triggers, and what dropping a table under
    foreign-key enforcement does to the rows of the tables that reference
    it. *)

Module Sqlite.

Inductive value :=
  | Null
  | Int (z : Z)
  | Text (s : string).

(** [col_pk] is 0 outside the primary key, else the 1-based rank in it. *)
Record column := Column {
  col_name : string;
  col_type : string;
  col_notnull : bool;
  col_default : option string;
  col_pk : nat
}.

Record foreign_key := ForeignKey {
  from_column : string;
  to_table : string;
  to_column : string;
  on_update : action;
  on_delete : action
}.

Record table := Table {
  columns : list column;
  foreign_keys : list foreign_key;
  rows : list (list value)
}.

Record index := Index {
  ix_table : string;
  ix_column : string
}.

Record database := Database {
  tables : gmap string table;
  indexes : gmap string index;
  refusal : stmt -> gmap string table -> gmap string index -> option exn
}.

(** A database whose engine refuses nothing beyond what the catalogue
    forbids. *)
Definition no_refusal : stmt -> gmap string table -> gmap string index -> option exn :=
  fun _ _ _ => None.

Definition column_names (tb : table) : list string := map col_name (columns tb).

(** *** Names *)

(** SQLite compares identifiers without regard to the case of the ASCII
    letters. *)
Definition lower_ascii (c : ascii) : ascii :=
  let n := nat_of_ascii c in
  if ((65 <=? n) && (n <=? 90))%nat then ascii_of_nat (n + 32) else c.

Fixpoint lower (s : string) : string :=
  match s with
  | EmptyString => EmptyString
  | String c rest => String (lower_ascii c) (lower rest)
  end.

Definition has_name (names : list string) (c : string) : bool :=
  bool_decide (lower c ∈ map lower names).

(** *** Catalogue queries *)

Definition col_row_of (i : nat) (c : column) : col_row :=
  ColRow (Z.of_nat i) (col_name c) (col_type c)
         (if col_notnull c then 1 else 0) (col_default c) (Z.of_nat (col_pk c)).

Definition fk_row_of (i : nat) (f : foreign_key) : fk_row :=
  FkRow (Z.of_nat i) 0 (to_table f) (from_column f) (to_column f)
        (action_sql (on_update f)) (action_sql (on_delete f)) "NONE".

Definition table_info_rows (tb : table) : list col_row :=
  imap col_row_of (columns tb).

Definition foreign_key_rows (tb : table) : list fk_row :=
  imap fk_row_of (foreign_keys tb).

Definition pragma_rows {A} (f : table -> list A) (t : string) (d : database)
  : exn + list A :=
  match tables d !! t with
  | Some tb => inr (f tb)
  | None => inr []
  end.

(** *** Statements, as far as the catalogue decides them *)

Definition err {A} (m : string) : exn + A := inl (Exn m).

Definition item_column (i : table_item) : option column :=
  match i with
  | Column_def n t nn d p => Some (Column n t nn d (if p then 1%nat else 0%nat))
  | Foreign_key _ _ _ _ => None
  end.

Definition item_foreign_key (i : table_item) : option foreign_key :=
  match i with
  | Column_def _ _ _ _ _ => None
  | Foreign_key f t c a => Some (ForeignKey f t c NO_ACTION a)
  end.

Definition is_pk (c : column) : bool := negb (Nat.eqb (col_pk c) 0).

Definition create_table (t : string) (items : list table_item) (d : database)
  : exn + database :=
  let cols := omap item_column items in
  let fks := omap item_foreign_key items in
  let names := map col_name cols in
  if bool_decide (is_Some (tables d !! t)) then
    err ("table " +:+ t +:+ " already exists")
  else if bool_decide (is_Some (indexes d !! t)) then
    err ("there is already an index named " +:+ t)
  else if bool_decide (cols = []) then
    err "syntax error: no column definition"
  else if negb (bool_decide (NoDup (map lower names))) then
    err "duplicate column name"
  else if (1 <? length (filter (fun c => is_pk c = true) cols))%nat then
    err ("table " +:+ t +:+ " has more than one primary key")
  else if negb (forallb (fun f => has_name names (from_column f)) fks) then
    err "unknown column in foreign key definition"
  else
    inr (Database (<[t := Table cols fks []]> (tables d)) (indexes d) (refusal d)).

Fixpoint position (x : string) (l : list string) : option nat :=
  match l with
  | [] => None
  | y :: l' => if String.eqb (lower x) (lower y) then Some 0%nat else S <$> position x l'
  end.

(** The value a row holds in the column called [c]. *)
Definition cell (names : list string) (r : list value) (c : string) : value :=
  match position c names with
  | Some i => nth i r Null
  | None => Null
  end.

(** One row of [INSERT INTO dst (cols) SELECT cols FROM src]: every column
    of [dst] named in [cols] receives the source row's value of that name
    (a column left out of the list would receive its default; the script
    always lists every column). *)
Definition copy_row (src_names cols dst_names : list string) (r : list value)
  : list value :=
  map (fun c => if has_name cols c then cell src_names r c else Null) dst_names.

Definition insert_select (dst : string) (cols : list string) (src : string)
    (d : database) : exn + database :=
  match tables d !! src, tables d !! dst with
  | Some s, Some t =>
      if forallb (has_name (column_names s)) cols
         && forallb (has_name (column_names t)) cols
      then
        let copied :=
          map (copy_row (column_names s) cols (column_names t)) (rows s) in
        inr (Database
               (<[dst := Table (columns t) (foreign_keys t) (rows t ++ copied)]>
                  (tables d))
               (indexes d) (refusal d))
      else err "no such column"
  | _, _ => err "no such table"
  end.

(** Dropping a table removes it, if it is there, and the indexes on it.
    Under foreign-key enforcement the engine may refuse to drop a table that
    is referenced (that is [refusal]); what the implicit DELETE does to the
    rows of the referencing tables when it is not refused is not modelled. *)
Definition remove_table (t : string) (d : database) : database :=
  Database (delete t (tables d))
           (filter (fun kv => ix_table kv.2 ≠ t) (indexes d))
           (refusal d).

Definition drop_table (t : string) (d : database) : exn + database :=
  match tables d !! t with
  | Some _ => inr (remove_table t d)
  | None => err ("no such table: " +:+ t)
  end.

Definition drop_table_if_exists (t : string) (d : database) : exn + database :=
  inr (remove_table t d).

Definition retarget (t n : string) (ix : index) : index :=
  if bool_decide (ix_table ix = t) then Index n (ix_column ix) else ix.

Definition alter_table_rename (t n : string) (d : database) : exn + database :=
  match tables d !! t with
  | None => err ("no such table: " +:+ t)
  | Some tb =>
      if bool_decide (is_Some (tables d !! n)) || bool_decide (is_Some (indexes d !! n))
      then err ("there is already another table or index with this name: " +:+ n)
      else
        inr (Database (<[n := tb]> (delete t (tables d)))
                      (retarget t n <$> indexes d) (refusal d))
  end.

Definition create_index_if_not_exists (ix t col : string) (d : database)
  : exn + database :=
  if bool_decide (is_Some (indexes d !! ix)) then inr d
  else if bool_decide (is_Some (tables d !! ix)) then
    err ("there is already a table named " +:+ ix)
  else
    match tables d !! t with
    | None => err ("no such table: main." +:+ t)
    | Some tb =>
        if has_name (column_names tb) col then
          inr (Database (tables d) (<[ix := Index t col]> (indexes d)) (refusal d))
        else err ("table " +:+ t +:+ " has no column named " +:+ col)
    end.

Definition structural (s : stmt) (d : database) : exn + database :=
  match s with
  | Drop_table_if_exists t => drop_table_if_exists t d
  | Create_table t items => create_table t items d
  | Insert_select dst cols src => insert_select dst cols src d
  | Drop_table t => drop_table t d
  | Alter_table_rename t n => alter_table_rename t n d
  | Create_index_if_not_exists ix t col => create_index_if_not_exists ix t col d
  end.

(** *** Statements, as the engine runs them *)

(** What the engine refuses for a reason the catalogue does not show.
    [DROP TABLE IF EXISTS] of the scratch table is never refused: its text is
    fixed and nothing refers to the scratch table. *)
Definition refused (s : stmt) (d : database) : option exn :=
  match s with
  | Drop_table_if_exists _ => None
  | _ => refusal d s (tables d) (indexes d)
  end.

Definition run_stmt (s : stmt) (d : database) : exn + database :=
  match refused s d with
  | Some e => inl e
  | None => structural s d
  end.

#[export] Instance engine : Engine database := {|
  foreign_key_list := pragma_rows foreign_key_rows;
  table_info := pragma_rows table_info_rows;
  run := run_stmt
|}.

(** The connection a migration run starts from. *)
Definition connect (d : database) : conn database := Conn d [] [].

(** The catalogue of one table, as the two PRAGMAs report it. *)
Definition schema (t : string) (d : database) : option (list col_row * list fk_row) :=
  (fun tb => (table_info_rows tb, foreign_key_rows tb)) <$> tables d !! t.

End Sqlite.

Import Sqlite.

(** ** What the rebuild makes of a table *)

(** The column the scratch table gets for a column of the original: the
    line written for a primary-key column carries its name and type and
    [PRIMARY KEY], nothing else. *)
Definition rebuilt_column (c : column) : column :=
  if is_pk c then Column (col_name c) (col_type c) false None 1 else c.

Definition fk_set_null : foreign_key :=
  ForeignKey "ssh_key_id" "ssh_keys" "id" NO_ACTION SET_NULL.

Definition copied_rows (tb : table) : list (list value) :=
  map (copy_row (column_names tb) (column_names tb) (column_names tb)) (rows tb).

Definition rebuilt (tb : table) : table :=
  Table (map rebuilt_column (columns tb)) [fk_set_null] (copied_rows tb).

(** What the catalogue requires of a table for the synthesized DDL to
    declare a table at all: column names distinct (letter case aside), at
    most one column in the primary key (each is written with an inline
    PRIMARY KEY), a column the fixed foreign-key clause can refer to.  The
    rebuild cannot complete without it; with it, the engine may still
    refuse a statement. *)
Definition declarable (tb : table) : Prop :=
  NoDup (map lower (column_names tb)) /\
  (length (filter (fun c => is_pk c = true) (columns tb)) <= 1)%nat /\
  lower "ssh_key_id" ∈ map lower (column_names tb).


(** The database once [DROP TABLE IF EXISTS ssh_connections_new] has run. *)
Definition scratch_dropped (d : database) : database :=
  remove_table "ssh_connections_new" d.

(** The states the rebuild passes through after that: the scratch table
    created (empty) or filled, the original dropped, the scratch table
    renamed, the index recreated. *)
Definition with_scratch (d : database) (sc : table) : database :=
  Database (<["ssh_connections_new" := sc]> (tables (scratch_dropped d)))
           (indexes (scratch_dropped d)) (refusal d).

Definition scratch_created (d : database) (tb : table) : database :=
  with_scratch d (Table (map rebuilt_column (columns tb)) [fk_set_null] []).

Definition scratch_filled (d : database) (tb : table) : database :=
  with_scratch d (rebuilt tb).

Definition original_gone (d : database) (tb : table) : database :=
  remove_table "ssh_connections" (scratch_filled d tb).

Definition renamed_indexes (d : database) : gmap string index :=
  retarget "ssh_connections_new" "ssh_connections"
    <$> filter (fun kv => ix_table kv.2 ≠ "ssh_connections")
               (indexes (scratch_dropped d)).

Definition scratch_renamed (d : database) (tb : table) : database :=
  Database (<["ssh_connections" := rebuilt tb]>
              (delete "ssh_connections_new" (tables d)))
           (renamed_indexes d) (refusal d).

Definition index_recreated (d : database) (tb : table) : database :=
  Database (<["ssh_connections" := rebuilt tb]>
              (delete "ssh_connections_new" (tables d)))
           (if bool_decide (is_Some (renamed_indexes d !! "ix_ssh_connections_ssh_key_id"))
            then renamed_indexes d
            else <["ix_ssh_connections_ssh_key_id" :=
                     Index "ssh_connections" "ssh_key_id"]> (renamed_indexes d))
           (refusal d).

(** The database one run of [upgrade] leaves, from a fresh connection. *)
Definition after_upgrade (d : database) : database :=
  db (snd (upgrade (connect d))).

(** The rebuild ran to its end: the two closing lines were printed. *)
Definition fixes (d : database) : Prop :=
  stdout (snd (upgrade (connect d))) = [msg_fixing; msg_fixed; msg_preserved].

(** ** The specification's wording, for comparison *)

(** Section 4.3, step 1: name and type, then NOT NULL if set, then DEFAULT
    if present, then PRIMARY KEY if the column is the primary key. *)
Definition spec_col_def (row : col_row) : string :=
  indent4 +:+
  item_sql (Column_def (name row) (type_ row) (truthy (notnull row))
                       (dflt_value row) (truthy (pk row))).


(** Section 4.2: satisfied when the foreign key from the target column
    already has the desired action, or when there is no such key. *)
Definition spec_already_satisfied (fk_rows : list fk_row) : bool :=
  match find (fun row => String.eqb (fk_from row) "ssh_key_id") fk_rows with
  | Some row => String.eqb (fk_on_delete row) "SET NULL"
  | None => true
  end.

(** What [col_def] keeps of a row: everything for a column outside the
    primary key, name, type and key rank for one inside. *)
Definition kept (row : col_row) : col_row :=
  if truthy (pk row)
  then ColRow (cid row) (name row) (type_ row) 0 None (pk row)
  else row.

(** ** Sample databases *)

Definition sample_columns : list column :=
  [ Column "id" "INTEGER" true None 1;
    Column "ssh_key_id" "INTEGER" false None 0;
    Column "host" "TEXT" true None 0;
    Column "created_at" "TIMESTAMP" false (Some "CURRENT_TIMESTAMP") 0 ].

Definition sample_rows : list (list value) :=
  [ [Int 1; Int 5; Text "h1"; Text "2024-01-01 00:00:00"] ].

Definition sample_table (a : action) : table :=
  Table sample_columns [ForeignKey "ssh_key_id" "ssh_keys" "id" NO_ACTION a]
        sample_rows.

Definition sample_keys : table :=
  Table [Column "id" "INTEGER" false None 1; Column "name" "TEXT" false None 0]
        [] [ [Int 5; Text "k"] ].

(** ssh_keys and ssh_connections, the latter with the given delete action. *)
Definition sample_db (a : action) : database :=
  Database {[ "ssh_keys" := sample_keys; "ssh_connections" := sample_table a ]} ∅
           no_refusal.



(** A two-column primary key. *)
Definition composite_table : table :=
  Table [ Column "host" "TEXT" true None 1;
          Column "port" "INTEGER" true None 2;
          Column "ssh_key_id" "INTEGER" false None 0 ]
        [ForeignKey "ssh_key_id" "ssh_keys" "id" NO_ACTION CASCADE]
        [ [Text "h1"; Int 22; Int 5] ].

Definition composite_db : database :=
  Database {[ "ssh_connections" := composite_table ]} ∅ no_refusal.

(** A scratch table left behind by an interrupted run. *)
Definition stale_db : database :=
  Database {[ "ssh_keys" := sample_keys;
              "ssh_connections" := sample_table CASCADE;
              "ssh_connections_new" := Table sample_columns [fk_set_null] [] ]} ∅
           no_refusal.


Definition empty_db : database := Database ∅ ∅ no_refusal.

Definition keys_only_db : database :=
  Database {[ "ssh_keys" := sample_keys ]} ∅ no_refusal.



(** The sample database with three indexes: two on ssh_connections, one on
    ssh_keys. *)
Definition indexed_db : database :=
  Database {[ "ssh_keys" := sample_keys; "ssh_connections" := sample_table CASCADE ]}
           {[ "ix_ssh_connections_ssh_key_id" := Index "ssh_connections" "ssh_key_id";
              "ix_ssh_connections_host" := Index "ssh_connections" "host";
              "ix_ssh_keys_name" := Index "ssh_keys" "name" ]}
           no_refusal.

(** The foreign-key column spelled in capitals. *)
Definition capitals_db : database :=
  Database
    {[ "ssh_connections" :=
         Table [ Column "id" "INTEGER" false None 1;
                 Column "SSH_KEY_ID" "INTEGER" false None 0 ]
               [ForeignKey "SSH_KEY_ID" "ssh_keys" "id" NO_ACTION CASCADE]
               [ [Int 1; Int 5] ] ]}
    ∅ no_refusal.

(** Engines that refuse one kind of statement. *)
Definition refusing (p : stmt -> bool) (m : string)
  : stmt -> gmap string table -> gmap string index -> option exn :=
  fun s _ _ => if p s then Some (Exn m) else None.

Definition is_create (s : stmt) : bool :=
  match s with Create_table _ _ => true | _ => false end.

Definition is_insert (s : stmt) : bool :=
  match s with Insert_select _ _ _ => true | _ => false end.

Definition is_drop (s : stmt) : bool :=
  match s with Drop_table _ => true | _ => false end.

(** The sample tables behind an engine that refuses the kind [p]. *)
Definition refusing_db (p : stmt -> bool) (m : string) : database :=
  Database {[ "ssh_keys" := sample_keys; "ssh_connections" := sample_table CASCADE ]} ∅
           (refusing p m).

(** An index that has taken the scratch table's name. *)
Definition name_taken_db : database :=
  Database {[ "ssh_keys" := sample_keys; "ssh_connections" := sample_table CASCADE ]}
           {[ "ssh_connections_new" := Index "ssh_keys" "name" ]}
           no_refusal.

(** * Properties *)

(** ** The synthesized text *)

Lemma item_sql_of_row (row : col_row) :
  indent4 +:+ item_sql (item_of_row row) = col_def row.
Proof.
  unfold col_def, item_of_row.
  destruct (truthy (pk row)); [reflexivity|].
  destruct (truthy (notnull row)), (dflt_value row); reflexivity.
Qed.


Lemma sql_insert_copy (col_rows : list col_row) :
  sql (insert_copy col_rows) = insert_sql col_rows.
Proof. reflexivity. Qed.

(** ** Control flow of [upgrade], for any engine *)

Section Flow.
Context {D : Type} `{Engine D}.

Lemma rebuild_outcome (c : conn D) (col_rows : list col_row) :
  table_info "ssh_connections" (db c) = inr col_rows ->
  let o := run_to_failure (rebuild_stmts col_rows) (db c) in
  rebuild c =
    (match failure o with None => Ok tt | Some e => Raise e end,
     Conn (final o)
          (executed c ++ sql_table_info "ssh_connections" :: sent o)
          (stdout c ++ match failure o with
                       | None => [msg_fixed; msg_preserved]
                       | Some _ => []
                       end)).
Proof.
  intros Hti. unfold rebuild, bind, pragma_table_info, execute, print, logged.
  rewrite Hti. cbn [db executed stdout rebuild_stmts run_to_failure].
  repeat (match goal with
          | |- context [run ?s ?d] => destruct (run s d) eqn:?
          end; cbn [db executed stdout final sent failure]);
    rewrite <- ?app_assoc; cbn [app]; try reflexivity.
  all: rewrite ?app_nil_r; reflexivity.
Qed.

(** The guard query is outside the [try]: its failure reaches the caller. *)
Lemma upgrade_guard_raises (c : conn D) (e : exn) :
  foreign_key_list "ssh_connections" (db c) = inl e ->
  upgrade c = (Raise e, logged (sql_foreign_key_list "ssh_connections") c).
Proof.
  intros Hfk. unfold upgrade, bind, pragma_foreign_key_list. now rewrite Hfk.
Qed.

Lemma upgrade_skip (c : conn D) (fk_rows : list fk_row) :
  foreign_key_list "ssh_connections" (db c) = inr fk_rows ->
  has_cascade fk_rows = false ->
  upgrade c =
    (Ok tt, Conn (db c)
                 (executed c ++ [sql_foreign_key_list "ssh_connections"])
                 (stdout c ++ [msg_skip])).
Proof.
  intros Hfk Hc. unfold upgrade, bind, pragma_foreign_key_list.
  rewrite Hfk, Hc. reflexivity.
Qed.

Lemma upgrade_rebuild (c : conn D) (fk_rows : list fk_row) (col_rows : list col_row) :
  foreign_key_list "ssh_connections" (db c) = inr fk_rows ->
  has_cascade fk_rows = true ->
  table_info "ssh_connections" (db c) = inr col_rows ->
  let o := run_to_failure (rebuild_stmts col_rows) (db c) in
  upgrade c =
    (Ok tt, Conn (final o)
                 (executed c ++ sql_foreign_key_list "ssh_connections"
                    :: sql_table_info "ssh_connections" :: sent o)
                 (stdout c ++ msg_fixing :: report (failure o))).
Proof.
  intros Hfk Hc Hti o. unfold upgrade, bind, pragma_foreign_key_list, try_except.
  rewrite Hfk, Hc. cbn [negb print logged db executed stdout].
  rewrite (rebuild_outcome _ col_rows) by exact Hti.
  cbn [db executed stdout]. fold o.
  destruct (failure o); unfold bind, print, report; cbn [db executed stdout];
    rewrite <- !app_assoc; reflexivity.
Qed.

Lemma upgrade_no_table_info (c : conn D) (fk_rows : list fk_row) (e : exn) :
  foreign_key_list "ssh_connections" (db c) = inr fk_rows ->
  has_cascade fk_rows = true ->
  table_info "ssh_connections" (db c) = inl e ->
  upgrade c =
    (Ok tt, Conn (db c)
                 (executed c ++ [sql_foreign_key_list "ssh_connections";
                                 sql_table_info "ssh_connections"])
                 (stdout c ++ [msg_fixing; msg_error e; msg_note])).
Proof.
  intros Hfk Hc Hti.
  unfold upgrade, bind, pragma_foreign_key_list, try_except, rebuild, bind,
    pragma_table_info, print, logged.
  rewrite Hfk, Hc. cbn [negb db executed stdout]. rewrite Hti.
  cbn [db executed stdout]. rewrite <- !app_assoc. reflexivity.
Qed.

Lemma cascade_enters_rebuild (c : conn D) (fk_rows : list fk_row) :
  foreign_key_list "ssh_connections" (db c) = inr fk_rows ->
  has_cascade fk_rows = true ->
  enters_rebuild c.
Proof.
  intros Hfk Hc. unfold enters_rebuild.
  destruct (table_info "ssh_connections" (db c)) as [e|col_rows] eqn:Hti.
  - rewrite (upgrade_no_table_info c fk_rows e) by assumption. now exists [].
  - rewrite (upgrade_rebuild c fk_rows col_rows) by assumption. eauto.
Qed.

Lemma enters_rebuild_not_skips (c : conn D) : enters_rebuild c -> ~ skips c.
Proof.
  intros [rest Hr] Hs. unfold skips in Hs. rewrite Hs in Hr. cbn in Hr.
  apply app_inv_head in Hr. discriminate.
Qed.

(** C3 (amended): the guard looks at every foreign key of the table and at
    the action CASCADE only.  Once the guard query has answered, the run
    takes the skip path exactly when no foreign-key row has on-delete
    action CASCADE, and enters the rebuild exactly when some row has. *)
Theorem upgrade_skips_iff_no_cascade (c : conn D) (fk_rows : list fk_row) :
  foreign_key_list "ssh_connections" (db c) = inr fk_rows ->
  (skips c <-> has_cascade fk_rows = false) /\
  (enters_rebuild c <-> has_cascade fk_rows = true).
Proof.
  intros Hfk. destruct (has_cascade fk_rows) eqn:Hc.
  - pose proof (cascade_enters_rebuild c fk_rows Hfk Hc) as Hr.
    pose proof (enters_rebuild_not_skips c Hr). intuition congruence.
  - assert (Hs : skips c).
    { unfold skips. now rewrite (upgrade_skip c fk_rows). }
    pose proof (enters_rebuild_not_skips c). intuition congruence.
Qed.


(** C10: [downgrade] returns normally, sends no statement over the
    connection and leaves the database as it is, whatever the engine and the
    state; it only prints that the downgrade is skipped.  In particular it
    does not bring the CASCADE action back. *)
Theorem downgrade_is_noop (c : conn D) :
  fst (downgrade c) = Ok tt /\
  db (snd (downgrade c)) = db c /\
  executed (snd (downgrade c)) = executed c /\
  stdout (snd (downgrade c)) = stdout c ++ [msg_downgrade].
Proof. unfold downgrade, print. cbn [fst snd db executed stdout]. auto. Qed.

End Flow.

(** ** The SQLite model: what the catalogue queries and the synthesized
    statements amount to *)

Lemma old_ne_new : "ssh_connections" ≠ "ssh_connections_new".
Proof. discriminate. Qed.

Lemma map_imap_indep {A B C} (g : B -> C) (h : A -> C) (f : nat -> A -> B) (l : list A) :
  (forall i x, g (f i x) = h x) -> map g (imap f l) = map h l.
Proof.
  revert f. induction l as [|x l IH]; intros f Hf; [reflexivity|].
  cbn. rewrite Hf. f_equal. apply IH. intros i y. apply Hf.
Qed.

Lemma omap_map_imap_some {A B B' C} (g : B' -> option C) (k : B -> B') (h : A -> C)
    (f : nat -> A -> B) (l : list A) :
  (forall i x, g (k (f i x)) = Some (h x)) -> omap g (map k (imap f l)) = map h l.
Proof.
  revert f. induction l as [|x l IH]; intros f Hf; [reflexivity|].
  cbn. rewrite Hf. cbn. f_equal. apply IH. intros i y. apply Hf.
Qed.

Lemma omap_map_imap_none {A B B' C} (g : B' -> option C) (k : B -> B')
    (f : nat -> A -> B) (l : list A) :
  (forall i x, g (k (f i x)) = None) -> omap g (map k (imap f l)) = [].
Proof.
  revert f. induction l as [|x l IH]; intros f Hf; [reflexivity|].
  cbn. rewrite Hf. apply IH. intros i y. apply Hf.
Qed.

Lemma truthy_of_nat (n : nat) : truthy (Z.of_nat n) = negb (Nat.eqb n 0).
Proof. destruct n; reflexivity. Qed.

Lemma names_table_info (tb : table) :
  map name (table_info_rows tb) = column_names tb.
Proof. apply map_imap_indep. reflexivity. Qed.

Lemma item_column_of_row (i : nat) (c : column) :
  item_column (item_of_row (col_row_of i c)) = Some (rebuilt_column c).
Proof.
  unfold item_of_row, rebuilt_column, is_pk. cbn [pk col_row_of].
  rewrite truthy_of_nat. destruct c as [n t nn d [|k]]; cbn; [|reflexivity].
  destruct nn; reflexivity.
Qed.

Lemma item_foreign_key_of_row (row : col_row) :
  item_foreign_key (item_of_row row) = None.
Proof. unfold item_of_row. destruct (truthy (pk row)); reflexivity. Qed.

Lemma scratch_columns (tb : table) :
  omap item_column (create_items (table_info_rows tb)) =
  map rebuilt_column (columns tb).
Proof.
  unfold create_items, table_info_rows. rewrite omap_app. cbn.
  rewrite app_nil_r. apply omap_map_imap_some. apply item_column_of_row.
Qed.

Lemma scratch_foreign_keys (tb : table) :
  omap item_foreign_key (create_items (table_info_rows tb)) = [fk_set_null].
Proof.
  unfold create_items, table_info_rows. rewrite omap_app.
  rewrite omap_map_imap_none; [reflexivity|].
  intros i c. apply item_foreign_key_of_row.
Qed.

Lemma names_rebuilt (cs : list column) :
  map col_name (map rebuilt_column cs) = map col_name cs.
Proof.
  rewrite List.map_map. apply List.map_ext. intros c.
  unfold rebuilt_column. destruct (is_pk c); reflexivity.
Qed.

Lemma is_pk_rebuilt (c : column) : is_pk (rebuilt_column c) = is_pk c.
Proof.
  unfold rebuilt_column. destruct (is_pk c) eqn:E; [reflexivity|exact E].
Qed.

Lemma pk_count_rebuilt (cs : list column) :
  length (filter (fun c => is_pk c = true) (map rebuilt_column cs)) =
  length (filter (fun c => is_pk c = true) cs).
Proof.
  induction cs as [|c cs IH]; [reflexivity|].
  cbn [map]. rewrite !filter_cons, is_pk_rebuilt.
  destruct (decide (is_pk c = true)); cbn; congruence.
Qed.

Lemma has_name_in (l : list string) (c : string) : In c l -> has_name l c = true.
Proof.
  intros Hc. apply bool_decide_eq_true. apply list_elem_of_In.
  now apply in_map.
Qed.

Lemma forallb_has_name_self (l : list string) : forallb (has_name l) l = true.
Proof. apply forallb_forall. intros c Hc. now apply has_name_in. Qed.






(** *** The statements of the rebuild, one by one *)

Lemma run_inr (s : stmt) (d d' : database) :
  run s d = inr d' -> structural s d = inr d'.
Proof.
  cbn [run engine]. unfold run_stmt. destruct (refused s d); [discriminate|auto].
Qed.

Lemma tables_scratch_dropped (d : database) :
  tables (scratch_dropped d) = delete "ssh_connections_new" (tables d).
Proof. reflexivity. Qed.

Lemma run_drop_scratch (d : database) :
  run (Drop_table_if_exists "ssh_connections_new") d = inr (scratch_dropped d).
Proof. reflexivity. Qed.

Lemma filter_twice (t : string) (m : gmap string index) :
  filter (fun kv => ix_table kv.2 ≠ t) (filter (fun kv => ix_table kv.2 ≠ t) m) =
  filter (fun kv => ix_table kv.2 ≠ t) m.
Proof.
  apply map_filter_id. intros i x Hx.
  now apply map_lookup_filter_Some in Hx as [_ Hx].
Qed.

Lemma scratch_dropped_idem (d : database) :
  scratch_dropped (scratch_dropped d) = scratch_dropped d.
Proof.
  unfold scratch_dropped, remove_table. cbn [tables indexes refusal].
  now rewrite delete_delete_eq, filter_twice.
Qed.

Lemma scratch_dropped_with_scratch (d : database) (sc : table) :
  scratch_dropped (with_scratch d sc) = scratch_dropped d.
Proof.
  unfold with_scratch, scratch_dropped, remove_table. cbn [tables indexes refusal].
  now rewrite delete_insert_eq, delete_delete_eq, filter_twice.
Qed.

Lemma old_in_scratch_dropped (d : database) :
  tables (scratch_dropped d) !! "ssh_connections" = tables d !! "ssh_connections".
Proof.
  rewrite tables_scratch_dropped. apply lookup_delete_ne. intros H; discriminate H.
Qed.

Lemma old_with_scratch (d : database) (sc : table) :
  tables (with_scratch d sc) !! "ssh_connections" = tables d !! "ssh_connections".
Proof.
  unfold with_scratch. cbn [tables].
  rewrite lookup_insert_ne by (intros H; discriminate H).
  apply old_in_scratch_dropped.
Qed.

(** The catalogue accepts the synthesized DDL for the declarable tables, as
    long as no index has taken the scratch table's name, and for no other. *)
Lemma structural_create_scratch (d : database) (tb : table) :
  (declarable tb /\
   structural (create_scratch (table_info_rows tb)) (scratch_dropped d) =
     inr (scratch_created d tb))
  \/ ((~ declarable tb \/ is_Some (indexes (scratch_dropped d) !! "ssh_connections_new")) /\
      exists e, structural (create_scratch (table_info_rows tb)) (scratch_dropped d)
                = inl e).
Proof.
  cbn [structural create_scratch]. unfold create_table, declarable.
  rewrite scratch_columns, scratch_foreign_keys, names_rebuilt, pk_count_rebuilt.
  fold (column_names tb).
  rewrite tables_scratch_dropped, lookup_delete_eq.
  rewrite bool_decide_eq_false_2 by (intros [? ?]; discriminate).
  case_bool_decide as Hix; [right; split; [tauto|unfold err; eauto]|].
  case_bool_decide as Hnil.
  { right. split; [|unfold err; eauto]. left.
    intros (_ & _ & Hin). unfold column_names in Hin.
    apply (f_equal (map col_name)) in Hnil. rewrite names_rebuilt in Hnil.
    rewrite Hnil in Hin. inversion Hin. }
  case_bool_decide as Hnd; cbn [negb];
    [|right; split; [tauto|unfold err; eauto]].
  destruct (Nat.ltb_spec 1 (length (filter (fun c => is_pk c = true) (columns tb))))
    as [Hpk|Hpk]; [right; split; [left; lia|unfold err; eauto]|].
  cbn [forallb from_column fk_set_null andb]. unfold has_name.
  case_bool_decide as Hin; cbn [negb];
    [left; split; [tauto|reflexivity]|right; split; [tauto|unfold err; eauto]].
Qed.

Lemma structural_insert_copy (d : database) (tb : table) :
  tables d !! "ssh_connections" = Some tb ->
  structural (insert_copy (table_info_rows tb)) (scratch_created d tb) =
    inr (scratch_filled d tb).
Proof.
  intros Hold. cbn [structural insert_copy]. unfold insert_select.
  unfold scratch_created. rewrite old_with_scratch, Hold.
  unfold with_scratch at 1. cbn [tables]. rewrite lookup_insert_eq.
  rewrite names_table_info.
  replace (column_names (Table (map rebuilt_column (columns tb)) [fk_set_null] []))
    with (column_names tb)
    by (unfold column_names; cbn [columns]; now rewrite names_rebuilt).
  rewrite forallb_has_name_self. cbn [andb rows app columns foreign_keys].
  unfold scratch_filled, with_scratch. cbn [tables indexes refusal].
  now rewrite insert_insert_eq.
Qed.

Lemma structural_drop_original (d : database) (tb : table) :
  tables d !! "ssh_connections" = Some tb ->
  structural (Drop_table "ssh_connections") (scratch_filled d tb) =
    inr (original_gone d tb).
Proof.
  intros Hold. cbn [structural]. unfold drop_table, scratch_filled.
  now rewrite old_with_scratch, Hold.
Qed.

Lemma tables_original_gone (d : database) (tb : table) :
  tables (original_gone d tb) =
    <["ssh_connections_new" := rebuilt tb]>
      (delete "ssh_connections" (delete "ssh_connections_new" (tables d))).
Proof.
  unfold original_gone, remove_table, scratch_filled, with_scratch. cbn [tables].
  rewrite tables_scratch_dropped.
  apply delete_insert_ne. intros H; discriminate H.
Qed.

Lemma structural_rename_scratch (d : database) (tb : table) :
  (structural (Alter_table_rename "ssh_connections_new" "ssh_connections")
              (original_gone d tb) = inr (scratch_renamed d tb))
  \/ exists e,
       structural (Alter_table_rename "ssh_connections_new" "ssh_connections")
                  (original_gone d tb) = inl e.
Proof.
  cbn [structural]. unfold alter_table_rename.
  rewrite tables_original_gone, lookup_insert_eq.
  rewrite lookup_insert_ne by (intros H; discriminate H).
  rewrite lookup_delete_eq.
  rewrite (bool_decide_eq_false_2 (is_Some None)) by (intros [? ?]; discriminate).
  cbn [orb].
  case_bool_decide as Hix; [right; unfold err; eauto|]. left.
  unfold scratch_renamed, renamed_indexes. f_equal. f_equal.
  rewrite delete_insert_eq, delete_delete, delete_delete_eq, insert_delete_eq.
  reflexivity.
Qed.

Lemma old_in_scratch_renamed (d : database) (tb : table) :
  tables (scratch_renamed d tb) !! "ssh_connections" = Some (rebuilt tb).
Proof. unfold scratch_renamed. cbn [tables]. apply lookup_insert_eq. Qed.

Lemma structural_recreate_index (d : database) (tb : table) :
  declarable tb ->
  (structural create_index (scratch_renamed d tb) = inr (index_recreated d tb))
  \/ exists e, structural create_index (scratch_renamed d tb) = inl e.
Proof.
  intros (_ & _ & Hkey). cbn [structural create_index].
  unfold create_index_if_not_exists, index_recreated.
  rewrite old_in_scratch_renamed.
  change (indexes (scratch_renamed d tb)) with (renamed_indexes d).
  case_bool_decide as Hix; [left; reflexivity|].
  case_bool_decide as Htb; [right; unfold err; eauto|].
  unfold has_name. rewrite bool_decide_eq_true_2; [left; reflexivity|].
  unfold column_names, rebuilt. cbn [columns]. rewrite names_rebuilt. exact Hkey.
Qed.

(** *** The whole rebuild *)


(** Where a rebuild can end.  A failure before the original is dropped
    leaves the original in place and, at most, a scratch table beside it;
    a failure of the rename leaves no table ssh_connections; a failure of
    the index leaves the rebuilt table; otherwise the rebuild is
    complete. *)
Lemma rebuild_ends (d : database) (tb : table) :
  tables d !! "ssh_connections" = Some tb ->
  let o := run_to_failure (rebuild_stmts (table_info_rows tb)) d in
  ((exists e, failure o = Some e) /\
   scratch_dropped (final o) = scratch_dropped d /\
   tables (final o) !! "ssh_connections" = Some tb)
  \/ ((exists e, failure o = Some e) /\
      tables (final o) !! "ssh_connections" = None)
  \/ ((exists e, failure o = Some e) /\
      tables (final o) !! "ssh_connections" = Some (rebuilt tb))
  \/ (failure o = None /\
      declarable tb /\
      final o = index_recreated d tb /\
      sent o = map sql (rebuild_stmts (table_info_rows tb))).
Proof.
  intros Hold. cbn [rebuild_stmts run_to_failure]. rewrite run_drop_scratch.
  destruct (run (create_scratch (table_info_rows tb)) (scratch_dropped d))
    as [e|d2] eqn:H2.
  { left. cbn [final failure]. split; [eauto|].
    split; [apply scratch_dropped_idem|]. now rewrite old_in_scratch_dropped. }
  apply run_inr in H2.
  destruct (structural_create_scratch d tb) as [[Hdecl Hc]|[_ [e He]]];
    [|congruence].
  assert (d2 = scratch_created d tb) as -> by congruence. clear H2 Hc.
  destruct (run (insert_copy (table_info_rows tb)) (scratch_created d tb))
    as [e|d3] eqn:H3.
  { left. cbn [final failure]. split; [eauto|].
    split; [apply scratch_dropped_with_scratch|].
    unfold scratch_created. now rewrite old_with_scratch. }
  apply run_inr in H3. rewrite (structural_insert_copy d tb Hold) in H3.
  injection H3 as <-.
  destruct (run (Drop_table "ssh_connections") (scratch_filled d tb))
    as [e|d4] eqn:H4.
  { left. cbn [final failure]. split; [eauto|].
    split; [apply scratch_dropped_with_scratch|].
    unfold scratch_filled. now rewrite old_with_scratch. }
  apply run_inr in H4. rewrite (structural_drop_original d tb Hold) in H4.
  injection H4 as <-.
  destruct (run (Alter_table_rename "ssh_connections_new" "ssh_connections")
                (original_gone d tb)) as [e|d5] eqn:H5.
  { right; left. cbn [final failure]. split; [eauto|].
    rewrite tables_original_gone.
    rewrite lookup_insert_ne by (intros H; discriminate H).
    apply lookup_delete_eq. }
  apply run_inr in H5.
  destruct (structural_rename_scratch d tb) as [Hr|[e He]]; [|congruence].
  assert (d5 = scratch_renamed d tb) as -> by congruence. clear H5 Hr.
  destruct (run create_index (scratch_renamed d tb)) as [e|d6] eqn:H6.
  { right; right; left. cbn [final failure]. split; [eauto|].
    apply old_in_scratch_renamed. }
  apply run_inr in H6.
  destruct (structural_recreate_index d tb Hdecl) as [Hi|[e He]]; [|congruence].
  assert (d6 = index_recreated d tb) as -> by congruence.
  right; right; right. cbn [final failure sent].
  split; [reflexivity|]. split; [exact Hdecl|]. split; reflexivity.
Qed.


(** *** The guard on the model *)

Lemma existsb_imap_indep {A B} (p : B -> bool) (q : A -> bool) (f : nat -> A -> B)
    (l : list A) :
  (forall i x, p (f i x) = q x) -> existsb p (imap f l) = existsb q l.
Proof.
  revert f. induction l as [|x l IH]; intros f Hf; [reflexivity|].
  cbn. rewrite Hf. f_equal. apply IH. intros i y. apply Hf.
Qed.

Lemma has_cascade_rows (tb : table) :
  has_cascade (foreign_key_rows tb) = true <->
  exists f, f ∈ foreign_keys tb /\ on_delete f = CASCADE.
Proof.
  unfold has_cascade, foreign_key_rows.
  rewrite (existsb_imap_indep _
             (fun f => match on_delete f with CASCADE => true | _ => false end)).
  - rewrite existsb_exists. split.
    + intros (f & Hin & Hf). exists f. split; [now apply list_elem_of_In|].
      destruct (on_delete f); congruence.
    + intros (f & Hin & Hf). exists f. split; [now apply list_elem_of_In|].
      now rewrite Hf.
  - intros i f. cbn. destruct (on_delete f); reflexivity.
Qed.

Lemma fk_list_present (d : database) (tb : table) :
  tables d !! "ssh_connections" = Some tb ->
  foreign_key_list "ssh_connections" d = inr (foreign_key_rows tb).
Proof. intros Hold. cbn. unfold pragma_rows. now rewrite Hold. Qed.

Lemma fk_list_missing (d : database) :
  tables d !! "ssh_connections" = None ->
  foreign_key_list "ssh_connections" d = inr [].
Proof. intros Hold. cbn. unfold pragma_rows. now rewrite Hold. Qed.

Lemma table_info_present (d : database) (tb : table) :
  tables d !! "ssh_connections" = Some tb ->
  table_info "ssh_connections" d = inr (table_info_rows tb).
Proof. intros Hold. cbn. unfold pragma_rows. now rewrite Hold. Qed.

(** *** One run of [upgrade] on the model, case by case *)

Lemma upgrade_sqlite_missing (c : conn database) :
  tables (db c) !! "ssh_connections" = None ->
  upgrade c =
    (Ok tt, Conn (db c) (executed c ++ [sql_foreign_key_list "ssh_connections"])
                 (stdout c ++ [msg_skip])).
Proof.
  intros Hold. apply (upgrade_skip c []); [now apply fk_list_missing|reflexivity].
Qed.

Lemma upgrade_sqlite_no_cascade (c : conn database) (tb : table) :
  tables (db c) !! "ssh_connections" = Some tb ->
  has_cascade (foreign_key_rows tb) = false ->
  upgrade c =
    (Ok tt, Conn (db c) (executed c ++ [sql_foreign_key_list "ssh_connections"])
                 (stdout c ++ [msg_skip])).
Proof.
  intros Hold Hc. apply (upgrade_skip c (foreign_key_rows tb)); [|exact Hc].
  now apply fk_list_present.
Qed.

Lemma upgrade_sqlite_rebuild (c : conn database) (tb : table) :
  tables (db c) !! "ssh_connections" = Some tb ->
  has_cascade (foreign_key_rows tb) = true ->
  upgrade c =
    (Ok tt,
     Conn (final (run_to_failure (rebuild_stmts (table_info_rows tb)) (db c)))
          (executed c ++ sql_foreign_key_list "ssh_connections"
             :: sql_table_info "ssh_connections"
             :: sent (run_to_failure (rebuild_stmts (table_info_rows tb)) (db c)))
          (stdout c ++ msg_fixing
             :: report (failure (run_to_failure (rebuild_stmts (table_info_rows tb))
                                                (db c))))).
Proof.
  intros Hold Hc.
  exact (upgrade_rebuild c _ _ (fk_list_present _ _ Hold) Hc
           (table_info_present _ _ Hold)).
Qed.


(** A run that printed the closing lines went through the whole rebuild. *)
Lemma fixes_final (d : database) :
  fixes d ->
  exists tb,
    tables d !! "ssh_connections" = Some tb /\
    has_cascade (foreign_key_rows tb) = true /\
    declarable tb /\
    after_upgrade d = index_recreated d tb.
Proof.
  unfold fixes, after_upgrade. intros Hfix.
  destruct (tables d !! "ssh_connections") as [tb|] eqn:Hold.
  2:{ rewrite upgrade_sqlite_missing in Hfix by exact Hold. discriminate. }
  destruct (has_cascade (foreign_key_rows tb)) eqn:Hc.
  2:{ rewrite (upgrade_sqlite_no_cascade _ tb) in Hfix by assumption. discriminate. }
  exists tb. rewrite (upgrade_sqlite_rebuild (connect d) tb Hold Hc) in *.
  cbn [snd stdout db connect app] in *.
  destruct (rebuild_ends d tb Hold)
    as [([e He] & _)|[([e He] & _)|[([e He] & _)|(Hf & Hdecl & Hfin & _)]]];
    try (rewrite He in Hfix; discriminate).
  rewrite Hfin. auto.
Qed.


(** ** The claims about the synthesized DDL *)

Lemma col_def_kept (row : col_row) : col_def row = spec_col_def (kept row).
Proof.
  unfold kept, spec_col_def. rewrite <- item_sql_of_row. unfold item_of_row.
  destruct (truthy (pk row)) eqn:Hpk; cbn [name type_ notnull dflt_value pk].
  - now rewrite Hpk.
  - now rewrite Hpk.
Qed.

(** C5 (as stated, refuted): for a primary-key column declared NOT NULL the
    specification's line carries NOT NULL before PRIMARY KEY; the line the
    script writes does not. *)
Lemma primary_key_line_drops_not_null :
  col_def (ColRow 0 "id" "INTEGER" 1 None 1) = "    id INTEGER PRIMARY KEY" /\
  spec_col_def (ColRow 0 "id" "INTEGER" 1 None 1) = "    id INTEGER NOT NULL PRIMARY KEY" /\
  new_ddl [ColRow 0 "id" "INTEGER" 1 None 1] <>
    "CREATE TABLE ssh_connections_new (" +:+ nl +:+
    join ("," +:+ nl) (map spec_col_def [ColRow 0 "id" "INTEGER" 1 None 1]
                       ++ [fk_clause_line]) +:+ nl +:+ ")".
Proof.
  split; [reflexivity|]. split; [reflexivity|]. vm_compute. discriminate.
Qed.

(** C5 (amended): the statement lists the columns in their original order.
    A column outside the primary key is written as name and type, then
    NOT NULL if it is declared not-null, then DEFAULT and its expression if
    it has one.  A primary-key column is written as name, type and
    PRIMARY KEY: its not-null flag and default are not written. *)
Theorem new_ddl_column_lines (col_rows : list col_row) :
  new_ddl col_rows =
    "CREATE TABLE ssh_connections_new (" +:+ nl +:+
    join ("," +:+ nl) (map (fun row => spec_col_def (kept row)) col_rows
                       ++ [fk_clause_line]) +:+ nl +:+ ")"
  /\ Forall (fun row => truthy (pk row) = false -> kept row = row) col_rows
  /\ Forall (fun row => truthy (pk row) = true ->
                        spec_col_def (kept row) =
                        indent4 +:+ name row +:+ " " +:+ type_ row +:+ " PRIMARY KEY")
            col_rows.
Proof.
  split; [|split].
  - unfold new_ddl, col_defs.
    now rewrite (List.map_ext _ _ col_def_kept).
  - apply Forall_forall. intros row _ Hpk. unfold kept. now rewrite Hpk.
  - apply Forall_forall. intros row _ Hpk. rewrite <- col_def_kept.
    unfold col_def. now rewrite Hpk.
Qed.


(** ** The claims about the resulting catalogue *)

(** C7 (as stated, refuted): on a database without the table the run
    returns normally. *)
Lemma missing_table_is_skipped :
  tables empty_db !! "ssh_connections" = None /\
  upgrade (connect empty_db) =
    (Ok tt, Conn empty_db ["PRAGMA foreign_key_list(ssh_connections)"] [msg_skip]).
Proof. split; reflexivity. Qed.

(** C7 (amended): when the table does not exist the guard query answers with
    no rows, so the run takes the skip path: it returns normally, has sent
    nothing but the guard query and leaves the database as it was. *)
Theorem upgrade_missing_table_skips (d : database) :
  tables d !! "ssh_connections" = None ->
  upgrade (connect d) =
    (Ok tt, Conn d ["PRAGMA foreign_key_list(ssh_connections)"] [msg_skip]).
Proof. intros Hold. now rewrite upgrade_sqlite_missing. Qed.

Lemma upgrade_missing_table_skips_witness :
  upgrade (connect keys_only_db) =
    (Ok tt, Conn keys_only_db
                 ["PRAGMA foreign_key_list(ssh_connections)"] [msg_skip]).
Proof. apply upgrade_missing_table_skips. reflexivity. Defined.







(** C3 (as stated, refuted): the ssh_key_id foreign key has action
    NO ACTION, so by the specification's guard the goal is not reached; the
    run takes the skip path all the same. *)
Lemma guard_skips_no_action :
  spec_already_satisfied (foreign_key_rows (sample_table NO_ACTION)) = false /\
  skips (connect (sample_db NO_ACTION)).
Proof. split; reflexivity. Qed.

Lemma upgrade_skips_iff_no_cascade_witness :
  (skips (connect (sample_db CASCADE)) <->
     has_cascade (foreign_key_rows (sample_table CASCADE)) = false) /\
  (enters_rebuild (connect (sample_db CASCADE)) <->
     has_cascade (foreign_key_rows (sample_table CASCADE)) = true).
Proof.
  apply (upgrade_skips_iff_no_cascade (connect (sample_db CASCADE))).
  reflexivity.
Defined.


(** On the two-column primary key the CREATE fails; the run reports it and
    returns, the table is as it was. *)
Example composite_key_failure_is_contained :
  upgrade (connect composite_db) =
    (Ok tt,
     Conn composite_db
          [ "PRAGMA foreign_key_list(ssh_connections)";
            "PRAGMA table_info(ssh_connections)";
            "DROP TABLE IF EXISTS ssh_connections_new";
            new_ddl (table_info_rows composite_table) ]
          [ msg_fixing;
            msg_error (Exn "table ssh_connections_new has more than one primary key");
            msg_note ]).
Proof. vm_compute. reflexivity. Qed.

(** What the engine refuses for its own reasons is contained in the same
    way: a refused CREATE leaves the database as it was, a refused copy
    leaves the empty scratch table behind, a refused DROP the filled one. *)
Example refused_statements_are_contained :
  after_upgrade (refusing_db is_create "syntax error")
    = refusing_db is_create "syntax error" /\
  rows <$> tables (after_upgrade (refusing_db is_insert "constraint failed"))
             !! "ssh_connections_new" = Some [] /\
  rows <$> tables (after_upgrade (refusing_db is_drop "constraint failed"))
             !! "ssh_connections_new" = Some sample_rows /\
  tables (after_upgrade (refusing_db is_drop "constraint failed")) !! "ssh_connections"
    = Some (sample_table CASCADE) /\
  stdout (snd (upgrade (connect name_taken_db))) =
    [ msg_fixing;
      msg_error (Exn "there is already an index named ssh_connections_new");
      msg_note ] /\
  fixes capitals_db.
Proof. repeat split; vm_compute; reflexivity. Qed.

(** *** What a rebuilt table keeps *)





(** The rows of the sample table come back as they were. *)
Example sample_rows_survive :
  rows <$> tables (after_upgrade (sample_db CASCADE)) !! "ssh_connections" =
    Some sample_rows.
Proof. vm_compute. reflexivity. Qed.





(** The run on the sample database with a stale scratch table completes. *)
Example stale_db_is_fixed :
  fixes stale_db /\
  schema "ssh_connections" (after_upgrade stale_db) =
    schema "ssh_connections" (after_upgrade (sample_db CASCADE)).
Proof. split; vm_compute; reflexivity. Qed.

(** After [upgrade] and then [downgrade] the sample table still has the
    SET NULL action. *)
Example downgrade_keeps_set_null :
  map fk_on_delete ∘ snd
    <$> schema "ssh_connections"
          (db (snd (downgrade (snd (upgrade (connect (sample_db CASCADE))))))) =
    Some ["SET NULL"].
Proof. vm_compute. reflexivity. Qed.
(** * Further properties of the script *)

(** ** For any engine *)

Section FlowMore.
Context {D : Type} `{Engine D}.

(** The only exception that leaves [upgrade] is one raised by the guard
    query, which sits before the [try]: [upgrade] raises [e] exactly when
    [PRAGMA foreign_key_list(ssh_connections)] raised [e]. *)
Theorem upgrade_raises_iff_guard_raises (c : conn D) (e : exn) :
  fst (upgrade c) = Raise e <->
  foreign_key_list "ssh_connections" (db c) = inl e.
Proof.
  destruct (foreign_key_list "ssh_connections" (db c)) as [e0|fk_rows] eqn:Hfk.
  - rewrite (upgrade_guard_raises c e0 Hfk). cbn [fst].
    split; intros Heq; injection Heq as ->; reflexivity.
  - destruct (has_cascade fk_rows) eqn:Hc.
    + destruct (table_info "ssh_connections" (db c)) as [e1|col_rows] eqn:Hti.
      * rewrite (upgrade_no_table_info c fk_rows e1) by assumption.
        cbn [fst]. split; discriminate.
      * rewrite (upgrade_rebuild c fk_rows col_rows) by assumption.
        cbn [fst]. split; discriminate.
    + rewrite (upgrade_skip c fk_rows) by assumption.
      cbn [fst]. split; discriminate.
Qed.

(** The closing lines "fixed" and "preserved" are printed exactly when the
    guard fired, the column query answered and every one of the six
    statements of the rebuild succeeded; after a failure they never are. *)
Theorem success_lines_iff_all_succeed (c : conn D) (fk_rows : list fk_row) :
  foreign_key_list "ssh_connections" (db c) = inr fk_rows ->
  stdout (snd (upgrade c)) = stdout c ++ [msg_fixing; msg_fixed; msg_preserved] <->
  has_cascade fk_rows = true /\
  exists col_rows,
    table_info "ssh_connections" (db c) = inr col_rows /\
    failure (run_to_failure (rebuild_stmts col_rows) (db c)) = None.
Proof.
  intros Hfk. destruct (has_cascade fk_rows) eqn:Hc.
  - destruct (table_info "ssh_connections" (db c)) as [e1|col_rows] eqn:Hti.
    + rewrite (upgrade_no_table_info c fk_rows e1) by assumption. cbn [snd stdout].
      split.
      * intros Heq. apply app_inv_head in Heq. discriminate.
      * intros (_ & col_rows & Habs & _). discriminate.
    + rewrite (upgrade_rebuild c fk_rows col_rows) by assumption. cbn [snd stdout].
      destruct (failure (run_to_failure (rebuild_stmts col_rows) (db c))) as [e1|] eqn:Hf;
        cbn [report].
      * split.
        -- intros Heq. apply app_inv_head in Heq. discriminate.
        -- intros (_ & col_rows' & Hti' & Hf'). congruence.
      * split; [eauto|reflexivity].
  - rewrite (upgrade_skip c fk_rows) by assumption. cbn [snd stdout]. split.
    + intros Heq. apply app_inv_head in Heq. discriminate.
    + intros (Habs & _). discriminate.
Qed.

(** On a connection with an empty log, [DROP TABLE ssh_connections] is sent
    only after the three statements before it have succeeded: the stale
    scratch table was dropped, the scratch table was created and the rows
    were copied into it. *)
Theorem original_dropped_only_after_copy (c : conn D) :
  executed c = [] ->
  In "DROP TABLE ssh_connections" (executed (snd (upgrade c))) ->
  exists col_rows d1 d2 d3,
    table_info "ssh_connections" (db c) = inr col_rows /\
    run (Drop_table_if_exists "ssh_connections_new") (db c) = inr d1 /\
    run (create_scratch col_rows) d1 = inr d2 /\
    run (insert_copy col_rows) d2 = inr d3.
Proof.
  intros Hlog Hin.
  destruct (foreign_key_list "ssh_connections" (db c)) as [e0|fk_rows] eqn:Hfk.
  { rewrite (upgrade_guard_raises c e0 Hfk) in Hin. cbn in Hin. rewrite Hlog in Hin.
    cbn in Hin. destruct Hin as [Habs|[]]. discriminate. }
  destruct (has_cascade fk_rows) eqn:Hc.
  2:{ rewrite (upgrade_skip c fk_rows) in Hin by assumption. cbn in Hin.
      rewrite Hlog in Hin. cbn in Hin. destruct Hin as [Habs|[]]. discriminate. }
  destruct (table_info "ssh_connections" (db c)) as [e1|col_rows] eqn:Hti.
  { rewrite (upgrade_no_table_info c fk_rows e1) in Hin by assumption.
    cbn in Hin. rewrite Hlog in Hin. cbn in Hin.
    destruct Hin as [Habs|[Habs|[]]]; discriminate. }
  rewrite (upgrade_rebuild c fk_rows col_rows) in Hin by assumption.
  cbn [snd executed rebuild_stmts run_to_failure] in Hin. rewrite Hlog in Hin.
  exists col_rows.
  destruct (run (Drop_table_if_exists "ssh_connections_new") (db c)) as [e|d1] eqn:H1.
  { cbn in Hin. destruct Hin as [Habs|[Habs|[Habs|[]]]]; discriminate. }
  destruct (run (create_scratch col_rows) d1) as [e|d2] eqn:H2.
  { cbn in Hin. destruct Hin as [Habs|[Habs|[Habs|[Habs|[]]]]]; discriminate. }
  destruct (run (insert_copy col_rows) d2) as [e|d3] eqn:H3.
  { cbn in Hin. destruct Hin as [Habs|[Habs|[Habs|[Habs|[Habs|[]]]]]]; discriminate. }
  eauto 10.
Qed.

End FlowMore.

Lemma success_lines_iff_all_succeed_witness :
  stdout (snd (upgrade (connect (sample_db CASCADE)))) =
    stdout (connect (sample_db CASCADE)) ++ [msg_fixing; msg_fixed; msg_preserved] <->
  has_cascade (foreign_key_rows (sample_table CASCADE)) = true /\
  exists col_rows,
    table_info "ssh_connections" (db (connect (sample_db CASCADE))) = inr col_rows /\
    failure (run_to_failure (rebuild_stmts col_rows) (db (connect (sample_db CASCADE))))
      = None.
Proof.
  apply (success_lines_iff_all_succeed (connect (sample_db CASCADE))).
  reflexivity.
Defined.

Lemma original_dropped_only_after_copy_witness :
  exists col_rows d1 d2 d3,
    table_info "ssh_connections" (db (connect (sample_db CASCADE))) = inr col_rows /\
    run (Drop_table_if_exists "ssh_connections_new") (db (connect (sample_db CASCADE)))
      = inr d1 /\
    run (create_scratch col_rows) d1 = inr d2 /\
    run (insert_copy col_rows) d2 = inr d3.
Proof.
  apply (original_dropped_only_after_copy (connect (sample_db CASCADE))).
  - reflexivity.
  - vm_compute. do 5 right. left. reflexivity.
Defined.

(** ** On the SQLite model *)






(** *** The copy, column by column *)






(** *** Indexes *)

Lemma index_after_scratch_drop (d : database) (n : string) (i : index) :
  indexes d !! n = Some i ->
  ix_table i <> "ssh_connections_new" ->
  indexes (scratch_dropped d) !! n = Some i.
Proof.
  intros Hn Hne. unfold scratch_dropped.
  cbn [remove_table indexes]. now apply map_lookup_filter_Some.
Qed.

Lemma no_index_after_scratch_drop (d : database) (n : string) :
  indexes d !! n = None -> indexes (scratch_dropped d) !! n = None.
Proof.
  intros Hn. unfold scratch_dropped.
  cbn [remove_table indexes]. apply map_lookup_filter_None. now left.
Qed.

(** A completed rebuild and the indexes: an index on ssh_connections other
    than ix_ssh_connections_ssh_key_id is gone afterwards (it went with the
    dropped table and is not recreated); ix_ssh_connections_ssh_key_id is
    there on ssh_connections(ssh_key_id), provided the name was free or held
    by an index of ssh_connections; an index on any other table is kept. *)
Theorem rebuild_indexes (d : database) :
  fixes d ->
  (forall n col,
     n <> "ix_ssh_connections_ssh_key_id" ->
     indexes d !! n = Some (Index "ssh_connections" col) ->
     indexes (after_upgrade d) !! n = None) /\
  (indexes d !! "ix_ssh_connections_ssh_key_id" = None \/
   (exists col, indexes d !! "ix_ssh_connections_ssh_key_id"
                = Some (Index "ssh_connections" col)) ->
   indexes (after_upgrade d) !! "ix_ssh_connections_ssh_key_id"
     = Some (Index "ssh_connections" "ssh_key_id")) /\
  (forall n i,
     indexes d !! n = Some i ->
     ix_table i <> "ssh_connections" ->
     ix_table i <> "ssh_connections_new" ->
     indexes (after_upgrade d) !! n = Some i).
Proof.
  intros Hfix. pose proof old_ne_new as Hne.
  destruct (fixes_final d Hfix) as (tb & Hold & Hc & Hrb & ->).
  unfold index_recreated. cbn [indexes].
  set (idx := renamed_indexes d).
  assert (Hgone : forall n col,
            indexes d !! n = Some (Index "ssh_connections" col) -> idx !! n = None).
  { intros n col Hn. unfold idx, renamed_indexes. rewrite lookup_fmap.
    rewrite (proj2 (map_lookup_filter_None _ _ n)); [reflexivity|].
    right. intros x Hx.
    rewrite (index_after_scratch_drop d n _ Hn) in Hx by (cbn; congruence).
    injection Hx as <-. cbn. tauto. }
  assert (Hkept : forall n i,
            indexes d !! n = Some i -> ix_table i <> "ssh_connections" ->
            ix_table i <> "ssh_connections_new" -> idx !! n = Some i).
  { intros n i Hn Ho Hs. unfold idx, renamed_indexes. rewrite lookup_fmap.
    rewrite (proj2 (map_lookup_filter_Some _ _ n i)).
    - cbn. unfold retarget. now rewrite bool_decide_eq_false_2.
    - split; [now apply index_after_scratch_drop|exact Ho]. }
  split; [|split].
  - intros n col Hn Hix. case_bool_decide; [now apply (Hgone n col)|].
    rewrite lookup_insert_ne by congruence. now apply (Hgone n col).
  - intros Hfree.
    assert (Hnone : idx !! "ix_ssh_connections_ssh_key_id" = None).
    { destruct Hfree as [Hfree|[col Hfree]]; [|now apply (Hgone _ col)].
      unfold idx, renamed_indexes. rewrite lookup_fmap.
      rewrite (proj2 (map_lookup_filter_None _ _ _)); [reflexivity|].
      left. now apply no_index_after_scratch_drop. }
    rewrite bool_decide_eq_false_2 by (rewrite Hnone; intros [? ?]; discriminate).
    apply lookup_insert_eq.
  - intros n i Hn Ho Hs. pose proof (Hkept n i Hn Ho Hs) as Hi.
    case_bool_decide as Hix; [exact Hi|].
    rewrite lookup_insert_ne; [exact Hi|].
    intros <-. apply Hix. rewrite Hi. eauto.
Qed.

Lemma rebuild_indexes_witness :
  indexes (after_upgrade indexed_db) !! "ix_ssh_connections_host" = None /\
  indexes (after_upgrade indexed_db) !! "ix_ssh_connections_ssh_key_id"
    = Some (Index "ssh_connections" "ssh_key_id") /\
  indexes (after_upgrade indexed_db) !! "ix_ssh_keys_name"
    = Some (Index "ssh_keys" "name").
Proof.
  destruct (rebuild_indexes indexed_db) as (H1 & H2 & H3).
  - vm_compute. reflexivity.
  - split; [|split].
    + apply (H1 "ix_ssh_connections_host" "host"); [discriminate|reflexivity].
    + apply H2. right. exists "ssh_key_id". reflexivity.
    + apply H3; [reflexivity|discriminate|discriminate].
Defined.

(** *** Any number of runs *)


(** Five startups on the sample database: the schema is the one a single
    run leaves.  Five startups behind an engine that refuses the copy: the
    database is the one the first failed run left. *)
Example five_runs_sample :
  schema "ssh_connections" (db (upgrade_runs 5 (connect (sample_db CASCADE)))) =
  schema "ssh_connections" (after_upgrade (sample_db CASCADE)) /\
  db (upgrade_runs 5 (connect (refusing_db is_insert "constraint failed"))) =
  after_upgrade (refusing_db is_insert "constraint failed").
Proof. split; vm_compute; reflexivity. Qed.

(** *** Columns added by later migrations *)



